(** * The client session of the websocket server (server/ws/src/client.ts)

    A shallow embedding of [ClientSession]: the session object is a record,
    its methods are computations in a state-and-error monad that threads the
    session, the measure context of the request being served, the state of
    the collaborators (pipeline, model store, response channel, socket,
    clock) and the sequence of calls made to them. *)

From stdpp Require Import base option numbers strings list gmap.

Local Open Scope Z_scope.

(** ** Data imported from the core package *)

Definition Ref := string.
Definition Timestamp := Z.

(** Modelled from the spec: the enumeration [AccountRole] (package core, not
    among the sources), the roles an account can have; the session names
    [Owner] only. *)
Inductive AccountRole := DocGuest | Guest | User | Maintainer | Owner.

(** [Data<Account>]: the attributes of an account, as the session writes
    them in [{ role: AccountRole.Owner, email }]. *)
Record AccountData := { role : AccountRole; email : string }.

(** Modelled from the spec: the type [Account] (package core, not among the
    sources), a document keyed by its reference: the attributes together with
    the reference, class and space of a document and the account that made
    it. *)
Record Account := {
  _id : Ref;
  doc_class : Ref;
  space : Ref;
  doc_modifiedBy : Ref;
  data : AccountData
}.

(** Modelled from the spec: the type [TxCreateDoc<Account>] (package core,
    not among the sources), the creation transaction of an account: what is
    given to the factory. *)
Record TxCreateDoc := {
  modifiedBy : Ref;
  objectId : Ref;
  objectClass : Ref;
  objectSpace : Ref;
  attributes : AccountData
}.

#[global] Instance AccountRole_eq_dec : EqDecision AccountRole.
Proof. solve_decision. Defined.
#[global] Instance AccountData_eq_dec : EqDecision AccountData.
Proof. solve_decision. Defined.
#[global] Instance Account_eq_dec : EqDecision Account.
Proof. solve_decision. Defined.

(** Modelled from the spec: [TxFactory.createTxCreateDoc] (package core, not
    among the sources).  The factory is built for an account and makes a
    creation transaction for a document of the given class and space, with the
    given attributes, keyed by the given reference. *)
Definition createTxCreateDoc (account : Ref) (cls spc : Ref)
    (attrs : AccountData) (oid : Ref) : TxCreateDoc :=
  {| modifiedBy := account;
     objectId := oid;
     objectClass := cls;
     objectSpace := spc;
     attributes := attrs |}.

(** Modelled from the spec: [TxProcessor.createDoc2Doc] (package core, not
    among the sources) converts a creation transaction into its resulting
    document: the attributes of the transaction under the reference, class and
    space the transaction names. *)
Definition createDoc2Doc (t : TxCreateDoc) : Account :=
  {| _id := objectId t;
     doc_class := objectClass t;
     space := objectSpace t;
     doc_modifiedBy := modifiedBy t;
     data := attributes t |}.

(** ** The session *)

(** [Token]: the email of the caller and the optional extra claims, of which
    the session reads [admin], [model] and [mode]. *)
Record Token := {
  token_email : string;
  extra : option (gmap string string)
}.

(** [StatisticsElement]: [{ find: 0, tx: 0 }]. *)
Module Stat.
Record StatisticsElement := { find : Z; tx : Z }.
End Stat.
Abbreviation StatisticsElement := Stat.StatisticsElement.

(** Modelled from the spec: the type [SessionRequest] (./types), the
    descriptor of a request in flight, kept under the request id. *)
Record SessionRequest := { id : string; start : Timestamp }.

(** What the session imports and only passes around or calls: the types of
    transactions, queries and results, the two fields of a transaction that
    [broadcast] reads ([objectClass] through the cast to [TxCUD<Doc>]), the
    view of a creation transaction as a transaction, and the pure helpers of
    [TxProcessor] and of the server core that [broadcast] calls. *)
Class Imports := {
  core_class_Account : Ref;
  core_space_Model : Ref;
  core_account_System : Ref;
  Tx : Type;
  _class : Tx → Ref;
  TxCUD_objectClass : Tx → Ref;
  as_Tx : TxCreateDoc → Tx;
  WorkspaceIdWithUrl : Type;
  Branding : Type;
  Scope : Type;
  DocumentQuery : Type;
  FindOptions : Type;
  FindResult : Type;
  SearchQuery : Type;
  SearchOptions : Type;
  SearchResult : Type;
  TxResult : Type;
  LoadModelResponse : Type;
  ConnectionSocket : Type;
  Error : Type;
  isExtendsCUD : Ref → bool;
  extractTx : Tx → Tx;
  createBroadcastEvent : list Ref → Tx
}.

Section Session.
Context `{Imports}.

Record ClientSession := {
  createTime : Timestamp;
  requests : gmap string SessionRequest;
  binaryMode : bool;
  useCompression : bool;
  sessionId : string;
  lastRequest : Timestamp;
  total : StatisticsElement;
  current : StatisticsElement;
  mins5 : StatisticsElement;
  measures : list (string * string);
  token : Token;
  workspaceId : WorkspaceIdWithUrl;
  branding : option Branding
}.

(** The context data that [includeSessionContext] attaches to a measure
    context ([SessionDataImpl]); the model store it also refers to is the
    shared one of the pipeline. *)
Record SessionData := {
  userEmail : string;
  sd_sessionId : string;
  admin : bool;
  broadcast_txes : list Tx;
  broadcast_targets : gmap string (list string);
  sd_workspace : WorkspaceIdWithUrl;
  sd_branding : option Branding;
  isAsyncContext : bool
}.

(** A measure context: its scope and the context data attached to it. *)
Record MeasureContext := {
  scope : Scope;
  contextData : option SessionData
}.

Record ClientSessionCtx := { ctx : MeasureContext }.

(** What is handed to [ctx.sendResponse]. *)
Inductive Payload :=
| PString (s : string)
| PLoadModel (r : LoadModelResponse)
| PAccount (a : option Account)
| PFindResult (r : FindResult)
| PSearchResult (r : SearchResult)
| PTxResult (r : TxResult).

(** The message [{ result: ... }] handed to the socket. *)
Record Response := { result : list Tx }.

(** The calls a session makes to its collaborators, in the order made. *)
Inductive Call :=
| Call_sendResponse (msg : Payload)
| Call_loadModel (c : MeasureContext) (lastModelTx : Timestamp) (hash : option string)
| Call_findAll (c : MeasureContext) (_class : Ref) (query : DocumentQuery)
    (options : option FindOptions)
| Call_searchFulltext (c : MeasureContext) (query : SearchQuery) (options : SearchOptions)
| Call_tx (c : MeasureContext) (txs : list Tx)
| Call_handleBroadcast (c : MeasureContext)
| Call_socket_send (socket : ConnectionSocket) (c : MeasureContext) (msg : Response)
    (binary compression : bool)
| Call_handleSend (c : MeasureContext) (socket : ConnectionSocket) (msg : Response)
    (chunkLimit : Z) (useBinary useCompression : bool).

(** The collaborators, over their own state [W]: the clock, the model store
    of the pipeline, the pipeline, the response channel of the request, the
    socket and the bounded send helper.  A call that can throw or reject
    answers with an [Error] on the left. *)
Class Collaborators (W : Type) := {
  Date_now : W → Timestamp;
  getAccountByEmail : W → string → option Account;
  findObject : W → Ref → option Account;
  pipeline_loadModel :
    MeasureContext → Timestamp → option string → W → (Error + LoadModelResponse) * W;
  pipeline_findAll :
    MeasureContext → Ref → DocumentQuery → option FindOptions → W → (Error + FindResult) * W;
  pipeline_searchFulltext :
    MeasureContext → SearchQuery → SearchOptions → W → (Error + SearchResult) * W;
  pipeline_tx : MeasureContext → list Tx → W → (Error + TxResult) * W;
  pipeline_handleBroadcast : MeasureContext → W → (Error + ()) * W;
  ctx_sendResponse : Payload → W → (Error + ()) * W;
  socket_send :
    ConnectionSocket → MeasureContext → Response → bool → bool → W → (Error + ()) * W;
  handleSend :
    MeasureContext → ConnectionSocket → Response → Z → bool → bool → W → W
}.

Context {W : Type} `{!Collaborators W}.

(** ** The monad of session methods *)

Record State := { this : ClientSession; world : W; calls : list Call }.

Definition M (A : Type) : Type := State → (Error + A) * State.

#[global] Instance M_ret : MRet M := λ A a st, (inr a, st).
#[global] Instance M_bind : MBind M := λ A B f m st,
  match m st with
  | (inl e, st') => (inl e, st')
  | (inr a, st') => f a st'
  end.

Definition gets {A} (f : State → A) : M A := λ st, (inr (f st), st).

Definition modify_this (f : ClientSession → ClientSession) : M () :=
  λ st, (inr (), {| this := f (this st); world := world st; calls := calls st |}).

(** A call to a collaborator: noted, then answered from the collaborators'
    state. *)
Definition extern {A} (c : Call) (f : W → (Error + A) * W) : M A :=
  λ st, let '(r, w) := f (world st) in
        (r, {| this := this st; world := w; calls := calls st ++ [c] |}).

Definition sendResponse (msg : Payload) : M () :=
  extern (Call_sendResponse msg) (ctx_sendResponse msg).

(** ** Field updates *)

Definition set_lastRequest (t : Timestamp) (s : ClientSession) : ClientSession :=
  {| createTime := createTime s; requests := requests s; binaryMode := binaryMode s;
     useCompression := useCompression s; sessionId := sessionId s;
     lastRequest := t;
     total := total s; current := current s; mins5 := mins5 s;
     measures := measures s; token := token s; workspaceId := workspaceId s;
     branding := branding s |}.

Definition set_total (e : StatisticsElement) (s : ClientSession) : ClientSession :=
  {| createTime := createTime s; requests := requests s; binaryMode := binaryMode s;
     useCompression := useCompression s; sessionId := sessionId s;
     lastRequest := lastRequest s;
     total := e; current := current s; mins5 := mins5 s;
     measures := measures s; token := token s; workspaceId := workspaceId s;
     branding := branding s |}.

Definition set_current (e : StatisticsElement) (s : ClientSession) : ClientSession :=
  {| createTime := createTime s; requests := requests s; binaryMode := binaryMode s;
     useCompression := useCompression s; sessionId := sessionId s;
     lastRequest := lastRequest s;
     total := total s; current := e; mins5 := mins5 s;
     measures := measures s; token := token s; workspaceId := workspaceId s;
     branding := branding s |}.

(** [e.find++] and [e.tx++].  The counters are numbers that count calls:
    whole, and far below the bound up to which a number holds every whole
    number exactly; they are integers here. *)
Definition incr_find (e : StatisticsElement) : StatisticsElement :=
  {| Stat.find := Stat.find e + 1; Stat.tx := Stat.tx e |}.

Definition incr_tx (e : StatisticsElement) : StatisticsElement :=
  {| Stat.find := Stat.find e; Stat.tx := Stat.tx e + 1 |}.

(** ** The methods of [ClientSession] *)

(** [new ClientSession (token, pipeline, workspaceId, branding)], the two
    readings of the clock being [t0] then [t1]. *)
Definition new_ClientSession (t0 t1 : Timestamp) (tok : Token)
    (ws : WorkspaceIdWithUrl) (br : option Branding) : ClientSession :=
  {| createTime := t0; requests := ∅; binaryMode := false; useCompression := true;
     sessionId := ""; lastRequest := t1;
     total := {| Stat.find := 0; Stat.tx := 0 |};
     current := {| Stat.find := 0; Stat.tx := 0 |};
     mins5 := {| Stat.find := 0; Stat.tx := 0 |};
     measures := []; token := tok; workspaceId := ws; branding := br |}.

Definition getUser (s : ClientSession) : string := token_email (token s).

(** [this.token.extra?.admin === 'true'] *)
Definition token_admin (t : Token) : bool :=
  bool_decide (extra t ≫= (.!! "admin") = Some "true").

Definition isUpgradeClient (s : ClientSession) : bool :=
  bool_decide (extra (token s) ≫= (.!! "model") = Some "upgrade").

Definition getMode (s : ClientSession) : string :=
  default "normal" (extra (token s) ≫= (.!! "mode")).

Definition Date_now_ : M Timestamp := gets (λ st, Date_now (world st)).

Definition ping (c : ClientSessionCtx) : M () :=
  now ← Date_now_;
  modify_this (set_lastRequest now);;
  sendResponse (PString "pong!").

(** [new SessionDataImpl (...)] attached to the measure context [c]. *)
Definition sessionContext (s : ClientSession) (c : MeasureContext) : MeasureContext :=
  {| scope := scope c;
     contextData := Some
       {| userEmail := token_email (token s);
          sd_sessionId := sessionId s;
          admin := token_admin (token s);
          broadcast_txes := [];
          broadcast_targets := ∅;
          sd_workspace := workspaceId s;
          sd_branding := branding s;
          isAsyncContext := false |} |}.

(** [ctx.contextData = contextData]: the context handed on to the pipeline is
    the one given, carrying the fresh context data. *)
Definition includeSessionContext (c : MeasureContext) : M MeasureContext :=
  s ← gets this;
  mret (sessionContext s c).

(** [ctx.ctx.with ('load-model', {}, f)] measures [f] and answers what [f]
    answers. *)
Definition loadModel (c : ClientSessionCtx) (lastModelTx : Timestamp)
    (hash : option string) : M () :=
  c' ← includeSessionContext (ctx c);
  result ← extern (Call_loadModel c' lastModelTx hash)
                  (pipeline_loadModel c' lastModelTx hash);
  sendResponse (PLoadModel result).

(** The creation transaction that [getAccount] makes for the caller [e]:
    [factory.createTxCreateDoc (core.class.Account, core.space.Model,
    { role: AccountRole.Owner, email }, e)], the factory being that of
    [core.account.System] and [email] being [`system:${e}`]. *)
Definition systemAccountTx (e : string) : TxCreateDoc :=
  let email := "system:" +:+ e in
  createTxCreateDoc core_account_System
    core_class_Account core_space_Model
    {| role := Owner; email := email |}
    e.

Definition getAccount (c : ClientSessionCtx) : M () :=
  s ← gets this;
  account ← gets (λ st, getAccountByEmail (world st) (token_email (token s)));
  if bool_decide (account = None) && token_admin (token s) then
    systemAccount ← gets (λ st, findObject (world st) (token_email (token s)));
    match systemAccount with
    | None =>
        let createTx := systemAccountTx (token_email (token s)) in
        c' ← includeSessionContext (ctx c);
        _ ← extern (Call_tx c' [as_Tx createTx]) (pipeline_tx c' [as_Tx createTx]);
        let acc := createDoc2Doc createTx in
        sendResponse (PAccount (Some acc))
    | Some _ => sendResponse (PAccount systemAccount)
    end
  else sendResponse (PAccount account).

Definition findAllRaw (c : MeasureContext) (_class : Ref) (query : DocumentQuery)
    (options : option FindOptions) : M FindResult :=
  now ← Date_now_;
  modify_this (set_lastRequest now);;
  modify_this (λ s, set_total (incr_find (total s)) s);;
  modify_this (λ s, set_current (incr_find (current s)) s);;
  c' ← includeSessionContext c;
  extern (Call_findAll c' _class query options) (pipeline_findAll c' _class query options).

Definition findAll (c : ClientSessionCtx) (_class : Ref) (query : DocumentQuery)
    (options : option FindOptions) : M () :=
  r ← findAllRaw (ctx c) _class query options;
  sendResponse (PFindResult r).

Definition searchFulltext (c : ClientSessionCtx) (query : SearchQuery)
    (options : SearchOptions) : M () :=
  now ← Date_now_;
  modify_this (set_lastRequest now);;
  c' ← includeSessionContext (ctx c);
  r ← extern (Call_searchFulltext c' query options) (pipeline_searchFulltext c' query options);
  sendResponse (PSearchResult r).

Definition tx (c : ClientSessionCtx) (t : Tx) : M () :=
  now ← Date_now_;
  modify_this (set_lastRequest now);;
  modify_this (λ s, set_total (incr_tx (total s)) s);;
  modify_this (λ s, set_current (incr_tx (current s)) s);;
  c' ← includeSessionContext (ctx c);
  result ← extern (Call_tx c' [t]) (pipeline_tx c' [t]);
  sendResponse (PTxResult result);;
  extern (Call_handleBroadcast c') (pipeline_handleBroadcast c').

(** Inside [broadcast], [this.tx] is the method [tx (ctx, tx)] of the class
    (the batch is the parameter [tx], without [this]); the [length] of a
    function is the number of its formal parameters. *)
Definition this_tx_length : Z := 2.

(** [classes.add (c)] on a [Set]: insertion order, no duplicates. *)
Definition Set_add (classes : list Ref) (c : Ref) : list Ref :=
  if decide (c ∈ classes) then classes else classes ++ [c].

(** The body of the loop [for (const dtx of tx)]. *)
Definition collect (classes : list Ref) (dtx : Tx) : list Ref :=
  let classes :=
    if isExtendsCUD (_class dtx) then Set_add classes (TxCUD_objectClass dtx) else classes in
  let etx := extractTx dtx in
  if isExtendsCUD (_class etx) then Set_add classes (TxCUD_objectClass etx) else classes.

(** The classes one transaction of a batch contributes, in the words of the
    specification: its own target class when it is a create, update or delete
    change, and the target class of its unwrapped form when that is one. *)
Definition affected_classes (dtx : Tx) : list Ref :=
  (if isExtendsCUD (_class dtx) then [TxCUD_objectClass dtx] else []) ++
  (if isExtendsCUD (_class (extractTx dtx))
   then [TxCUD_objectClass (extractTx dtx)] else []).

(** [void handleSend (...)]: the helper is started and its outcome dropped,
    so that nothing it does can make [broadcast] throw. *)
Definition broadcast (c : MeasureContext) (socket : ConnectionSocket)
    (txs : list Tx) : M () :=
  s ← gets this;
  if bool_decide (this_tx_length > 10000) then
    let classes := foldl collect [] txs in
    let bevent := createBroadcastEvent classes in
    extern (Call_socket_send socket c {| result := [bevent] |}
              (binaryMode s) (useCompression s))
           (socket_send socket c {| result := [bevent] |}
              (binaryMode s) (useCompression s))
  else
    extern (Call_handleSend c socket {| result := txs |} (1024 * 1024)
              (binaryMode s) (useCompression s))
           (λ w, (inr (), handleSend c socket {| result := txs |} (1024 * 1024)
                            (binaryMode s) (useCompression s) w)).

(** ** Requests and reachable states *)

(** The operations of a session. *)
Inductive Op :=
| Op_ping (c : ClientSessionCtx)
| Op_loadModel (c : ClientSessionCtx) (lastModelTx : Timestamp) (hash : option string)
| Op_getAccount (c : ClientSessionCtx)
| Op_findAll (c : ClientSessionCtx) (_class : Ref) (query : DocumentQuery)
    (options : option FindOptions)
| Op_searchFulltext (c : ClientSessionCtx) (query : SearchQuery) (options : SearchOptions)
| Op_tx (c : ClientSessionCtx) (t : Tx)
| Op_broadcast (c : MeasureContext) (socket : ConnectionSocket) (txs : list Tx).

Definition run (o : Op) : M () :=
  match o with
  | Op_ping c => ping c
  | Op_loadModel c t h => loadModel c t h
  | Op_getAccount c => getAccount c
  | Op_findAll c cl q o => findAll c cl q o
  | Op_searchFulltext c q o => searchFulltext c q o
  | Op_tx c t => tx c t
  | Op_broadcast c sk txs => broadcast c sk txs
  end.

(** The state a method call leaves, and the calls it made. *)
Definition after {A} (m : M A) (st : State) : State := (m st).2.

Definition made {A} (m : M A) (st : State) : list Call :=
  drop (length (calls st)) (calls (after m st)).

(** The clock does not run backwards while a collaborator works. *)
Class MonotoneClock := {
  clock_loadModel c t h w : Date_now w ≤ Date_now (pipeline_loadModel c t h w).2;
  clock_findAll c cl q o w : Date_now w ≤ Date_now (pipeline_findAll c cl q o w).2;
  clock_searchFulltext c q o w : Date_now w ≤ Date_now (pipeline_searchFulltext c q o w).2;
  clock_tx c l w : Date_now w ≤ Date_now (pipeline_tx c l w).2;
  clock_handleBroadcast c w : Date_now w ≤ Date_now (pipeline_handleBroadcast c w).2;
  clock_sendResponse m w : Date_now w ≤ Date_now (ctx_sendResponse m w).2;
  clock_socket_send sk c m b z w : Date_now w ≤ Date_now (socket_send sk c m b z w).2;
  clock_handleSend c sk m n b z w : Date_now w ≤ Date_now (handleSend c sk m n b z w)
}.

(** The last activity of the session is not in the future. *)
Definition clock_ok (st : State) : Prop := lastRequest (this st) ≤ Date_now (world st).

(** A session just constructed, at a time when the clock read [t1]. *)
Definition initial (st : State) : Prop :=
  ∃ t0 t1 tok ws br,
    this st = new_ClientSession t0 t1 tok ws br ∧ t1 ≤ Date_now (world st).

(** States reached from a new session by its operations, the collaborators
    moving on their own in between with the clock not running backwards. *)
Inductive reachable : State → Prop :=
| reachable_new st : initial st → reachable st
| reachable_run o st : reachable st → reachable (after (run o) st)
| reachable_env st w :
    reachable st → Date_now (world st) ≤ Date_now w →
    reachable {| this := this st; world := w; calls := calls st |}.

Definition stats_le (e e' : StatisticsElement) : Prop :=
  Stat.find e ≤ Stat.find e' ∧ Stat.tx e ≤ Stat.tx e'.

(** ** Reading the calls *)


Definition is_pipeline_write (k : Call) : bool :=
  match k with Call_tx _ _ => true | _ => false end.

Definition is_sendResponse (k : Call) : bool :=
  match k with Call_sendResponse _ => true | _ => false end.

(** How many answers were given to the response channel. *)
Definition responses (l : list Call) : nat := length (List.filter is_sendResponse l).

(** The measure context an operation is called with. *)
Definition op_context (o : Op) : MeasureContext :=
  match o with
  | Op_ping c | Op_loadModel c _ _ | Op_getAccount c | Op_findAll c _ _ _
  | Op_searchFulltext c _ _ | Op_tx c _ => ctx c
  | Op_broadcast c _ _ => c
  end.

Definition is_broadcast (o : Op) : bool :=
  match o with Op_broadcast _ _ _ => true | _ => false end.

End Session.

Arguments State {_} W.
Arguments M {_} W A.

(** ** A test double of the collaborators

    A pipeline that applies creation transactions to a model store kept as
    the list of its accounts, a response channel and a socket that accept
    everything, and a clock that ticks with every call. *)
Module TestDouble.

Inductive TTx :=
| TCreate (t : TxCreateDoc)
| TUpdate (objectClass : Ref)
| TCollection (objectClass : Ref) (inner : TTx)
| TEvent (classes : list Ref).

Definition class_of (t : TTx) : Ref :=
  match t with
  | TCreate _ => "core:class:TxCreateDoc"
  | TUpdate _ => "core:class:TxUpdateDoc"
  | TCollection _ _ => "core:class:TxCollectionCUD"
  | TEvent _ => "core:class:TxWorkspaceEvent"
  end.

Definition objectClass_of (t : TTx) : Ref :=
  match t with
  | TCreate c => objectClass c
  | TUpdate oc => oc
  | TCollection oc _ => oc
  | TEvent _ => ""
  end.

#[export] Instance imports : Imports := {|
  core_class_Account := "core:class:Account";
  core_space_Model := "core:space:Model";
  core_account_System := "core:account:System";
  Tx := TTx;
  _class := class_of;
  TxCUD_objectClass := objectClass_of;
  as_Tx := TCreate;
  WorkspaceIdWithUrl := string;
  Branding := string;
  Scope := string;
  DocumentQuery := string;
  FindOptions := ();
  FindResult := list Account;
  SearchQuery := string;
  SearchOptions := ();
  SearchResult := list Account;
  TxResult := ();
  LoadModelResponse := list TTx;
  ConnectionSocket := string;
  Error := string;
  isExtendsCUD c :=
    bool_decide (c ∈ ["core:class:TxCreateDoc"; "core:class:TxUpdateDoc";
                      "core:class:TxCollectionCUD"]);
  extractTx t := match t with TCollection _ inner => inner | _ => t end;
  createBroadcastEvent := TEvent
|}.

Record World := { clock : Z; accounts : list Account }.

Definition tick (w : World) : World :=
  {| clock := clock w + 1; accounts := accounts w |}.

Definition apply_tx (t : TTx) (w : World) : World :=
  match t with
  | TCreate c => {| clock := clock w; accounts := accounts w ++ [createDoc2Doc c] |}
  | _ => w
  end.

#[export] Instance collaborators : Collaborators World := {|
  Date_now := clock;
  getAccountByEmail w e :=
    last (filter (λ a, email (data a) = e) (accounts w));
  findObject w r := head (filter (λ a, _id a = r) (accounts w));
  pipeline_loadModel _ _ _ w := (inr [], tick w);
  pipeline_findAll _ cl _ _ w :=
    (inr (filter (λ a, doc_class a = cl) (accounts w)), tick w);
  pipeline_searchFulltext _ _ _ w := (inr [], tick w);
  pipeline_tx _ txs w := (inr (), tick (foldl (λ w t, apply_tx t w) w txs));
  pipeline_handleBroadcast _ w := (inr (), tick w);
  ctx_sendResponse _ w := (inr (), tick w);
  socket_send _ _ _ _ _ w := (inr (), tick w);
  handleSend _ _ _ _ _ _ w := tick w
|}.

Definition admin_token : Token :=
  {| token_email := "admin@example.com";
     extra := Some {[ "admin" := "true" ]} |}.

Definition user_token : Token :=
  {| token_email := "user@example.com"; extra := None |}.

Definition world0 : World := {| clock := 1000; accounts := [] |}.

(** A session constructed when the clock read 1000. *)
Definition state0 (tok : Token) : State World :=
  {| this := new_ClientSession 1000 1000 tok "ws" None;
     world := world0; calls := [] |}.

Definition mctx : MeasureContext := {| scope := "request"; contextData := None |}.
Definition sctx : ClientSessionCtx := {| ctx := mctx |}.

Definition txA : TTx :=
  TCreate (createTxCreateDoc "user:1" "class:A" "space:S"
             {| role := User; email := "a@example.com" |} "a1").
Definition txB : TTx := TUpdate "class:B".

(** A batch of 10,001 creation transactions, all of class A. *)
Definition large_batch : list TTx := replicate (Z.to_nat 10001) txA.

(** A batch of three transactions of the classes A, B and A. *)
Definition small_batch : list TTx := [txA; txB; txA].

End TestDouble.


(** ** A test double whose pipeline or response channel can be down

    The collaborators of [TestDouble], with two switches: a pipeline that is
    down rejects every call, a response channel that is down throws on every
    answer. *)
Module FaultyDouble.
Import TestDouble.

Record Faulty := { base : World; pipeline_down : bool; channel_down : bool }.

Definition on_base {A} (down : bool) (f : World → (Error + A) * World)
    (w : Faulty) : (Error + A) * Faulty :=
  if down then
    (inl "down",
     {| base := tick (base w); pipeline_down := pipeline_down w;
        channel_down := channel_down w |})
  else
    let '(r, b) := f (base w) in
    (r, {| base := b; pipeline_down := pipeline_down w;
           channel_down := channel_down w |}).

#[export] Instance faulty_collaborators : Collaborators Faulty := {|
  Date_now w := clock (base w);
  getAccountByEmail w := getAccountByEmail (base w);
  findObject w := findObject (base w);
  pipeline_loadModel c t h w := on_base (pipeline_down w) (pipeline_loadModel c t h) w;
  pipeline_findAll c cl q o w := on_base (pipeline_down w) (pipeline_findAll c cl q o) w;
  pipeline_searchFulltext c q o w :=
    on_base (pipeline_down w) (pipeline_searchFulltext c q o) w;
  pipeline_tx c txs w := on_base (pipeline_down w) (pipeline_tx c txs) w;
  pipeline_handleBroadcast c w := on_base (pipeline_down w) (pipeline_handleBroadcast c) w;
  ctx_sendResponse p w := on_base (channel_down w) (ctx_sendResponse p) w;
  socket_send sk c m b z w := on_base false (socket_send sk c m b z) w;
  handleSend c sk m n b z w :=
    {| base := handleSend c sk m n b z (base w); pipeline_down := pipeline_down w;
       channel_down := channel_down w |}
|}.

(** A new session over a world whose pipeline, or response channel, is down. *)
Definition faulty_state (tok : Token) (pipeline channel : bool) : State Faulty :=
  {| this := new_ClientSession 1000 1000 tok "ws" None;
     world := {| base := world0; pipeline_down := pipeline; channel_down := channel |};
     calls := [] |}.

(** An account of the model store, and a new session over a store holding it. *)
Definition alice : Account :=
  {| _id := "account:alice"; doc_class := "core:class:Account";
     space := "core:space:Model"; doc_modifiedBy := "core:account:System";
     data := {| role := User; email := "user@example.com" |} |}.

Definition state_with_alice (tok : Token) : State World :=
  {| this := new_ClientSession 2000 2000 tok "ws" None;
     world := {| clock := 2000; accounts := [alice] |}; calls := [] |}.

End FaultyDouble.

(** ** Proof steps *)

(** The monad, unfolded. *)
Ltac unfold_M :=
  unfold after, sendResponse, includeSessionContext, Date_now_,
    extern, modify_this, gets;
  unfold mbind, M_bind, mret, M_ret; cbn.

(** Case analysis on the answers of the collaborators. *)
Ltac answer t :=
  let E := fresh "E" in destruct t as [[?|?] ?] eqn:E; cbn in *.

Ltac answers :=
  repeat match goal with
  | |- context [pipeline_loadModel ?a ?b ?c ?w] => answer (pipeline_loadModel a b c w)
  | |- context [pipeline_findAll ?a ?b ?c ?d ?w] => answer (pipeline_findAll a b c d w)
  | |- context [pipeline_searchFulltext ?a ?b ?c ?w] =>
      answer (pipeline_searchFulltext a b c w)
  | |- context [pipeline_tx ?a ?b ?w] => answer (pipeline_tx a b w)
  | |- context [pipeline_handleBroadcast ?a ?w] => answer (pipeline_handleBroadcast a w)
  | |- context [ctx_sendResponse ?a ?w] => answer (ctx_sendResponse a w)
  | |- context [socket_send ?a ?b ?c ?d ?e ?w] => answer (socket_send a b c d e w)
  end.

(** The clock law of the call recorded by each equation. *)
Create HintDb clock.
#[global] Hint Resolve clock_loadModel clock_findAll clock_searchFulltext clock_tx
  clock_handleBroadcast clock_sendResponse clock_socket_send : clock.

Ltac clock_facts :=
  repeat match goal with
  | E : ?f ?w = (_, ?w') |- _ =>
      assert (Date_now w ≤ Date_now w')
        by (replace w' with (f w).2 by (rewrite E; reflexivity); auto with clock);
      clear E
  end.

(** * Properties *)

Section Properties.
Context `{Imports} {W : Type} `{!Collaborators W}.

Implicit Types (st : State W) (c : ClientSessionCtx) (m : MeasureContext).

Lemma made_app {A} (f : M W A) st l :
  calls (after f st) = calls st ++ l → made f st = l.
Proof. intros E. unfold made. rewrite E. apply drop_app_length. Qed.

(** ** [broadcast] *)

Lemma this_tx_length_small : bool_decide (this_tx_length > 10000) = false.
Proof. reflexivity. Qed.

(** Whatever the batch, [broadcast] takes its second branch. *)
Lemma broadcast_eq m sk txs st :
  broadcast m sk txs st =
    (inr (),
     {| this := this st;
        world := handleSend m sk {| result := txs |} (1024 * 1024)
                   (binaryMode (this st)) (useCompression (this st)) (world st);
        calls := calls st ++
                 [Call_handleSend m sk {| result := txs |} (1024 * 1024)
                    (binaryMode (this st)) (useCompression (this st))] |}).
Proof. unfold broadcast. rewrite this_tx_length_small. reflexivity. Qed.

Lemma broadcast_made m sk txs st :
  made (broadcast m sk txs) st =
    [Call_handleSend m sk {| result := txs |} (1024 * 1024)
       (binaryMode (this st)) (useCompression (this st))].
Proof. apply made_app. unfold after. rewrite broadcast_eq. reflexivity. Qed.

(** C2: for every transaction batch whose length is at most 10,000,
    [broadcast] returns normally having made one call only, the call of the
    send helper with the message [{ result: tx }] holding the batch as it was
    given, the chunk limit 1024 * 1024 and the two transport flags of the
    session; no compacted event is built or sent. *)
Theorem broadcast_sends_batch_verbatim m sk txs st :
  Z.of_nat (length txs) ≤ 10000 →
  (broadcast m sk txs st).1 = inr () ∧
  made (broadcast m sk txs) st =
    [Call_handleSend m sk {| result := txs |} (1024 * 1024)
       (binaryMode (this st)) (useCompression (this st))].
Proof.
  intros _. split.
  - rewrite broadcast_eq. reflexivity.
  - apply broadcast_made.
Qed.

(** C10: [broadcast] leaves the state owned by the session as it was: the
    three statistics snapshots, the time of the last request and the map of
    live requests, and indeed the whole session record. *)
Theorem broadcast_frame m sk txs st :
  let st' := after (broadcast m sk txs) st in
  total (this st') = total (this st) ∧
  current (this st') = current (this st) ∧
  mins5 (this st') = mins5 (this st) ∧
  lastRequest (this st') = lastRequest (this st) ∧
  requests (this st') = requests (this st) ∧
  this st' = this st.
Proof.
  cbn. unfold after. rewrite broadcast_eq. cbn. repeat split.
Qed.

(** ** [getAccount] *)

Lemma getAccount_absent_eq c st :
  getAccountByEmail (world st) (token_email (token (this st))) = None →
  token_admin (token (this st)) = false →
  getAccount c st = sendResponse (PAccount None) st.
Proof.
  intros Hacc Hadm. unfold getAccount. unfold_M.
  rewrite Hacc, Hadm. reflexivity.
Qed.

Lemma sendResponse_calls p st :
  calls (after (sendResponse p) st) = calls st ++ [Call_sendResponse p] ∧
  this (after (sendResponse p) st) = this st.
Proof. unfold_M. answers; auto. Qed.

(** C3: when the model store has no account for the caller's email and the
    caller is no admin, [getAccount] answers the request with the absent
    account and makes no other call: nothing is submitted to the pipeline. *)
Theorem getAccount_absent_no_write c st :
  getAccountByEmail (world st) (token_email (token (this st))) = None →
  token_admin (token (this st)) = false →
  made (getAccount c) st = [Call_sendResponse (PAccount None)] ∧
  (∀ m txs, Call_tx m txs ∉ made (getAccount c) st) ∧
  this (after (getAccount c) st) = this st.
Proof.
  intros Hacc Hadm.
  assert (Hm : made (getAccount c) st = [Call_sendResponse (PAccount None)]).
  { apply made_app. unfold after. rewrite getAccount_absent_eq by done.
    apply sendResponse_calls. }
  split; [done|split].
  - intros m txs. rewrite Hm. intros Hin.
    apply list_elem_of_singleton in Hin. discriminate.
  - unfold after. rewrite getAccount_absent_eq by done. apply sendResponse_calls.
Qed.

(** What [getAccount] does for an admin without account of either kind. *)
Lemma getAccount_create_eq c st :
  let e := token_email (token (this st)) in
  let m' := sessionContext (this st) (ctx c) in
  token_admin (token (this st)) = true →
  getAccountByEmail (world st) e = None →
  findObject (world st) e = None →
  getAccount c st =
    (_ ← extern (Call_tx m' [as_Tx (systemAccountTx e)])
                (pipeline_tx m' [as_Tx (systemAccountTx e)]);
     sendResponse (PAccount (Some (createDoc2Doc (systemAccountTx e))))) st.
Proof.
  intros e m' Hadm Hacc Hsys. unfold getAccount. unfold_M.
  fold e. rewrite Hacc, Hadm. cbn. rewrite Hsys. reflexivity.
Qed.

Lemma getAccount_system_eq c st a :
  let e := token_email (token (this st)) in
  token_admin (token (this st)) = true →
  getAccountByEmail (world st) e = None →
  findObject (world st) e = Some a →
  getAccount c st = sendResponse (PAccount (Some a)) st.
Proof.
  intros e Hadm Hacc Hsys. unfold getAccount. unfold_M.
  fold e. rewrite Hacc, Hadm. cbn. rewrite Hsys. reflexivity.
Qed.

(** C4: for an admin caller with no account for the email and no document
    under the raw email as reference, [getAccount] submits to the pipeline
    one batch, holding the one creation transaction of the account, and
    makes no other pipeline call; when the pipeline accepts it, the document
    of that transaction is sent as the answer.  The email of that document is
    [system:] followed by the caller's email, its role is Owner and its
    reference is the caller's email. *)
Theorem getAccount_admin_creates_system_account c st :
  let e := token_email (token (this st)) in
  let m' := sessionContext (this st) (ctx c) in
  let createTx := systemAccountTx e in
  let acc := createDoc2Doc createTx in
  token_admin (token (this st)) = true →
  getAccountByEmail (world st) e = None →
  findObject (world st) e = None →
  made (getAccount c) st =
    match (pipeline_tx m' [as_Tx createTx] (world st)).1 with
    | inr _ => [Call_tx m' [as_Tx createTx]; Call_sendResponse (PAccount (Some acc))]
    | inl _ => [Call_tx m' [as_Tx createTx]]
    end ∧
  email (data acc) = "system:" +:+ e ∧
  role (data acc) = Owner ∧
  _id acc = e.
Proof.
  intros e m' createTx acc Hadm Hacc Hsys. split; [|done].
  apply made_app. unfold after. rewrite getAccount_create_eq by done.
  fold e m' createTx acc. unfold_M. answers; rewrite <- ?app_assoc; reflexivity.
Qed.

(** C5: after a first call of [getAccount] by an admin made the system
    account, the model store then holding that document under the raw email
    as reference and still no account for the email, a second call answers
    with the same document and makes no other call: no second creation
    transaction is submitted. *)
Theorem getAccount_idempotent c1 c2 st :
  let e := token_email (token (this st)) in
  let m' := sessionContext (this st) (ctx c1) in
  let acc := createDoc2Doc (systemAccountTx e) in
  let st1 := after (getAccount c1) st in
  token_admin (token (this st)) = true →
  getAccountByEmail (world st) e = None →
  findObject (world st) e = None →
  (getAccount c1 st).1 = inr () →
  findObject (world st1) e = Some acc →
  getAccountByEmail (world st1) e = None →
  made (getAccount c1) st =
    [Call_tx m' [as_Tx (systemAccountTx e)]; Call_sendResponse (PAccount (Some acc))] ∧
  made (getAccount c2) st1 = [Call_sendResponse (PAccount (Some acc))] ∧
  (∀ m txs, Call_tx m txs ∉ made (getAccount c2) st1).
Proof.
  intros e m' acc st1 Hadm Hacc Hsys Hok Hsys1 Hacc1.
  assert (Hthis : this st1 = this st).
  { unfold st1, after. rewrite getAccount_create_eq by done.
    unfold_M. answers; reflexivity. }
  assert (H1 : made (getAccount c1) st =
    [Call_tx m' [as_Tx (systemAccountTx e)]; Call_sendResponse (PAccount (Some acc))]).
  { apply made_app. revert Hok. unfold after.
    rewrite getAccount_create_eq by done. fold e m' acc.
    unfold_M. answers; intros Hok; try discriminate;
      rewrite <- app_assoc; reflexivity. }
  assert (H2 : made (getAccount c2) st1 = [Call_sendResponse (PAccount (Some acc))]).
  { apply made_app. unfold after.
    rewrite (getAccount_system_eq c2 st1 acc); rewrite ?Hthis; try done.
    apply sendResponse_calls. }
  split; [done|split; [done|]].
  intros m txs. rewrite H2. intros Hin.
  apply list_elem_of_singleton in Hin. discriminate.
Qed.

(** ** [tx] *)

(** The context data is built from fields that the bookkeeping leaves alone. *)
Lemma sessionContext_bookkeeping s m e1 e2 t :
  sessionContext (set_current e1 (set_total e2 (set_lastRequest t s))) m =
  sessionContext s m.
Proof. reflexivity. Qed.

Lemma tx_made c t st :
  let m' := sessionContext (this st) (ctx c) in
  made (tx c t) st =
    match (pipeline_tx m' [t] (world st)).1 with
    | inl _ => [Call_tx m' [t]]
    | inr result =>
        match (ctx_sendResponse (PTxResult result) (pipeline_tx m' [t] (world st)).2).1 with
        | inl _ => [Call_tx m' [t]; Call_sendResponse (PTxResult result)]
        | inr _ => [Call_tx m' [t]; Call_sendResponse (PTxResult result);
                    Call_handleBroadcast m']
        end
    end.
Proof.
  intros m'. apply made_app. unfold tx. unfold_M.
  rewrite sessionContext_bookkeeping. fold m'.
  answers; rewrite <- ?app_assoc; reflexivity.
Qed.

(** C6: in the calls that [tx] makes, a call of [handleBroadcast] comes last
    and has before it exactly the submission of the transaction to the
    pipeline and then the delivery of the pipeline's result to the response
    channel. *)
Theorem tx_reply_before_broadcast c t st pre mb post :
  let m' := sessionContext (this st) (ctx c) in
  made (tx c t) st = pre ++ Call_handleBroadcast mb :: post →
  ∃ result,
    (pipeline_tx m' [t] (world st)).1 = inr result ∧
    pre = [Call_tx m' [t]; Call_sendResponse (PTxResult result)] ∧
    mb = m' ∧ post = [].
Proof.
  intros m'. rewrite tx_made. fold m'.
  destruct (pipeline_tx m' [t] (world st)).1 as [err|result].
  { intros E. destruct pre as [|? [|? ?]]; discriminate. }
  destruct (ctx_sendResponse _ _).1.
  { intros E. destruct pre as [|? [|? [|? ?]]]; discriminate. }
  intros E. exists result. split; [done|].
  destruct pre as [|? [|? [|? pre]]]; cbn in E; try discriminate.
  - inversion E. done.
  - inversion E as [[E1 E2 E3 E4]]. destruct pre; discriminate.
Qed.

(** When every collaborator answers, all three calls are made. *)
Lemma tx_made_ok c t st :
  let m' := sessionContext (this st) (ctx c) in
  (tx c t st).1 = inr () →
  ∃ result,
    (pipeline_tx m' [t] (world st)).1 = inr result ∧
    made (tx c t) st =
      [Call_tx m' [t]; Call_sendResponse (PTxResult result); Call_handleBroadcast m'].
Proof.
  intros m'. rewrite tx_made. fold m'. unfold tx. unfold_M.
  rewrite sessionContext_bookkeeping. fold m'.
  answers; intros Hok; try discriminate; eauto.
Qed.

(** ** Statistics *)

Lemma findAll_this c cl q o st :
  this (after (findAll c cl q o) st) =
    set_current (incr_find (current (this st)))
      (set_total (incr_find (total (this st)))
         (set_lastRequest (Date_now (world st)) (this st))).
Proof. unfold findAll, findAllRaw. unfold_M. answers; reflexivity. Qed.

Lemma tx_this c t st :
  this (after (tx c t) st) =
    set_current (incr_tx (current (this st)))
      (set_total (incr_tx (total (this st)))
         (set_lastRequest (Date_now (world st)) (this st))).
Proof. unfold tx. unfold_M. answers; reflexivity. Qed.

Lemma searchFulltext_this c q o st :
  this (after (searchFulltext c q o) st) =
    set_lastRequest (Date_now (world st)) (this st).
Proof. unfold searchFulltext. unfold_M. answers; reflexivity. Qed.

Lemma ping_this c st :
  this (after (ping c) st) = set_lastRequest (Date_now (world st)) (this st).
Proof. unfold ping. unfold_M. answers; reflexivity. Qed.

Lemma loadModel_this c t h st : this (after (loadModel c t h) st) = this st.
Proof. unfold loadModel. unfold_M. answers; reflexivity. Qed.

Lemma getAccount_this c st : this (after (getAccount c) st) = this st.
Proof.
  unfold getAccount. unfold_M.
  destruct (_ && _); [destruct (findObject _ _)|]; unfold_M; answers; reflexivity.
Qed.

Lemma broadcast_this m sk txs st : this (after (broadcast m sk txs) st) = this st.
Proof. unfold after. rewrite broadcast_eq. reflexivity. Qed.

(** C7: every call of [findAll] adds exactly one to the find counter of the
    total and of the current statistics and sets the time of the last request
    to the reading of the clock, which is not before the time it replaces
    when that time is not in the future; every call of [tx] does the same
    with the two transaction counters. *)
Theorem find_and_tx_counted_once c st :
  clock_ok st →
  (∀ cl q o,
     let st' := after (findAll c cl q o) st in
     Stat.find (total (this st')) = Stat.find (total (this st)) + 1 ∧
     Stat.find (current (this st')) = Stat.find (current (this st)) + 1 ∧
     lastRequest (this st') = Date_now (world st) ∧
     lastRequest (this st) ≤ lastRequest (this st')) ∧
  (∀ t,
     let st' := after (tx c t) st in
     Stat.tx (total (this st')) = Stat.tx (total (this st)) + 1 ∧
     Stat.tx (current (this st')) = Stat.tx (current (this st)) + 1 ∧
     lastRequest (this st') = Date_now (world st) ∧
     lastRequest (this st) ≤ lastRequest (this st')).
Proof.
  unfold clock_ok. intros Hclock. split.
  - intros cl q o. cbn. rewrite findAll_this. cbn. auto.
  - intros t. cbn. rewrite tx_this. cbn. auto.
Qed.

(** C8: a call of [searchFulltext] changes no find counter, of the total,
    the current or the five minute statistics (nor any transaction counter),
    and sets the time of the last request to the reading of the clock. *)
Theorem searchFulltext_not_counted c q o st :
  let st' := after (searchFulltext c q o) st in
  Stat.find (total (this st')) = Stat.find (total (this st)) ∧
  Stat.find (current (this st')) = Stat.find (current (this st)) ∧
  Stat.find (mins5 (this st')) = Stat.find (mins5 (this st)) ∧
  total (this st') = total (this st) ∧
  current (this st') = current (this st) ∧
  mins5 (this st') = mins5 (this st) ∧
  lastRequest (this st') = Date_now (world st).
Proof. cbn. rewrite searchFulltext_this. cbn. repeat split. Qed.

Lemma stats_le_refl e : stats_le e e.
Proof. unfold stats_le. lia. Qed.

(** C9: no operation of the session lowers a counter: after any of [ping],
    [loadModel], [getAccount], [findAll], [searchFulltext], [tx] and
    [broadcast], the find and transaction counters of the total, the current
    and the five minute statistics are at least what they were. *)
Theorem counters_never_decrease o st :
  let st' := after (run o) st in
  stats_le (total (this st)) (total (this st')) ∧
  stats_le (current (this st)) (current (this st')) ∧
  stats_le (mins5 (this st)) (mins5 (this st')).
Proof.
  cbn. destruct o; cbn [run].
  - rewrite ping_this. cbn. auto using stats_le_refl.
  - rewrite loadModel_this. auto using stats_le_refl.
  - rewrite getAccount_this. auto using stats_le_refl.
  - rewrite findAll_this. cbn. unfold stats_le. cbn. lia.
  - rewrite searchFulltext_this. cbn. auto using stats_le_refl.
  - rewrite tx_this. cbn. unfold stats_le. cbn. lia.
  - rewrite broadcast_this. auto using stats_le_refl.
Qed.

(** ** The clock *)

Lemma run_this o st :
  this (after (run o) st) = this st ∨
  lastRequest (this (after (run o) st)) = Date_now (world st).
Proof.
  destruct o; cbn [run].
  - right. rewrite ping_this. reflexivity.
  - left. apply loadModel_this.
  - left. apply getAccount_this.
  - right. rewrite findAll_this. reflexivity.
  - right. rewrite searchFulltext_this. reflexivity.
  - right. rewrite tx_this. reflexivity.
  - left. apply broadcast_this.
Qed.

Section Clock.
Context `{!MonotoneClock}.

Lemma run_clock o st : Date_now (world st) ≤ Date_now (world (after (run o) st)).
Proof.
  destruct o; cbn [run];
    unfold ping, loadModel, getAccount, findAll, findAllRaw, searchFulltext, tx;
    try (unfold after; rewrite broadcast_eq; cbn; apply clock_handleSend);
    unfold_M;
    try (destruct (_ && _); [destruct (findObject _ _)|]; unfold_M);
    answers; clock_facts; lia.
Qed.

(** The time of the last request never overtakes the clock. *)
Lemma clock_ok_run o st : clock_ok st → clock_ok (after (run o) st).
Proof.
  unfold clock_ok. intros Hst.
  pose proof (run_clock o st) as Hclock.
  destruct (run_this o st) as [E|E]; rewrite E; lia.
Qed.

Lemma reachable_clock_ok st : reachable st → clock_ok st.
Proof.
  induction 1 as [st (t0 & t1 & tok & ws & br & E & Ht)|o st _ IH|st w _ IH Hw].
  - unfold clock_ok. rewrite E. exact Ht.
  - apply clock_ok_run, IH.
  - unfold clock_ok in *. cbn. lia.
Qed.

End Clock.

(** ** What the compacting branch of [broadcast] computes *)

Lemma Set_add_elem r x (l : list Ref) : r ∈ Set_add l x ↔ r ∈ l ∨ r = x.
Proof.
  unfold Set_add. destruct (decide (x ∈ l)).
  - split; [auto|]. intros [?| ->]; done.
  - rewrite elem_of_app, list_elem_of_singleton. done.
Qed.

Lemma Set_add_NoDup x (l : list Ref) : NoDup l → NoDup (Set_add l x).
Proof.
  intros Hl. unfold Set_add. destruct (decide (x ∈ l)); [done|].
  apply NoDup_app. split; [done|]. split; [|apply NoDup_singleton].
  intros y Hy Hyx. apply list_elem_of_singleton in Hyx. subst. done.
Qed.

Lemma collect_elem r (l : list Ref) dtx :
  r ∈ collect l dtx ↔ r ∈ l ∨ r ∈ affected_classes dtx.
Proof.
  unfold collect, affected_classes.
  destruct (isExtendsCUD (_class dtx)), (isExtendsCUD (_class (extractTx dtx)));
    rewrite ?Set_add_elem; cbn; rewrite ?elem_of_cons, ?elem_of_nil; tauto.
Qed.

Lemma collect_NoDup (l : list Ref) dtx : NoDup l → NoDup (collect l dtx).
Proof.
  intros Hl. unfold collect.
  destruct (isExtendsCUD (_class dtx)), (isExtendsCUD (_class (extractTx dtx)));
    auto using Set_add_NoDup.
Qed.

(** The list of classes built by the loop holds, once each, the target class
    of every transaction of the batch that is a change and the target class
    of every unwrapped transaction that is one. *)
Lemma foldl_collect_spec txs :
  NoDup (foldl collect [] txs) ∧
  ∀ r, r ∈ foldl collect [] txs ↔ ∃ dtx, dtx ∈ txs ∧ r ∈ affected_classes dtx.
Proof.
  assert (G : ∀ l, NoDup l →
    NoDup (foldl collect l txs) ∧
    ∀ r, r ∈ foldl collect l txs ↔ r ∈ l ∨ ∃ dtx, dtx ∈ txs ∧ r ∈ affected_classes dtx).
  { induction txs as [|dtx txs IH]; intros l Hl; cbn.
    - split; [done|]. intros r. split; [auto|].
      intros [?|(dtx & Hin & _)]; [done|]. by apply elem_of_nil in Hin.
    - destruct (IH (collect l dtx) (collect_NoDup l dtx Hl)) as [Hnd Hel].
      split; [done|]. intros r. rewrite Hel, collect_elem. split.
      + intros [[?|?]|(d & Hd & Hr)]; eauto using list_elem_of_here.
        right. exists d. split; [by apply list_elem_of_further|done].
      + intros [?|(d & Hd & Hr)]; [auto|].
        apply elem_of_cons in Hd as [->|Hd]; eauto. }
  destruct (G [] (NoDup_nil_2)) as [Hnd Hel]. split; [done|].
  intros r. rewrite Hel. split; [|auto].
  intros [Hr|?]; [by apply elem_of_nil in Hr|done].
Qed.

End Properties.


(** * Further properties of the methods *)

Section Methods.
Context `{Imports} {W : Type} `{!Collaborators W}.

Implicit Types (st : State W) (c : ClientSessionCtx) (m : MeasureContext).

(** The calls of a method, read off its run. *)
Ltac run_made :=
  unfold made, after; unfold_M; answers;
  rewrite <- ?app_assoc, ?drop_app_length; cbn.

(** ** [getAccount] *)

Lemma getAccount_found_eq c st a :
  getAccountByEmail (world st) (token_email (token (this st))) = Some a →
  getAccount c st = sendResponse (PAccount (Some a)) st.
Proof. intros Hacc. unfold getAccount. unfold_M. rewrite Hacc. reflexivity. Qed.

Lemma sendResponse_made p st : made (sendResponse p) st = [Call_sendResponse p].
Proof. apply made_app, sendResponse_calls. Qed.

Lemma made_eq {A} (f g : M W A) st : f st = g st → made f st = made g st.
Proof. unfold made, after. intros ->. reflexivity. Qed.

(** X1: when the model store has an account for the caller's email,
    [getAccount] answers with that account and makes no other call, whether
    the caller is an admin or not; the session is left as it was. *)
Theorem getAccount_found c st a :
  getAccountByEmail (world st) (token_email (token (this st))) = Some a →
  made (getAccount c) st = [Call_sendResponse (PAccount (Some a))] ∧
  this (after (getAccount c) st) = this st.
Proof.
  intros Hacc. split; [|apply getAccount_this].
  rewrite (made_eq _ _ _ (getAccount_found_eq c st a Hacc)).
  apply sendResponse_made.
Qed.

(** X2: for an admin caller without account for the email, a document that
    the model store already holds under the raw email as reference is the
    answer of [getAccount], and nothing is submitted to the pipeline. *)
Theorem getAccount_existing_system_account c st a :
  token_admin (token (this st)) = true →
  getAccountByEmail (world st) (token_email (token (this st))) = None →
  findObject (world st) (token_email (token (this st))) = Some a →
  made (getAccount c) st = [Call_sendResponse (PAccount (Some a))].
Proof.
  intros Hadm Hacc Hsys.
  rewrite (made_eq _ _ _ (getAccount_system_eq c st a Hadm Hacc Hsys)).
  apply sendResponse_made.
Qed.

(** All the calls [getAccount] can make. *)
Lemma getAccount_made c st :
  let e := token_email (token (this st)) in
  let m' := sessionContext (this st) (ctx c) in
  made (getAccount c) st =
    match getAccountByEmail (world st) e with
    | Some a => [Call_sendResponse (PAccount (Some a))]
    | None =>
        if token_admin (token (this st)) then
          match findObject (world st) e with
          | Some a => [Call_sendResponse (PAccount (Some a))]
          | None =>
              match (pipeline_tx m' [as_Tx (systemAccountTx e)] (world st)).1 with
              | inr _ => [Call_tx m' [as_Tx (systemAccountTx e)];
                          Call_sendResponse
                            (PAccount (Some (createDoc2Doc (systemAccountTx e))))]
              | inl _ => [Call_tx m' [as_Tx (systemAccountTx e)]]
              end
          end
        else [Call_sendResponse (PAccount None)]
    end.
Proof.
  intros e m'.
  destruct (getAccountByEmail (world st) e) as [a|] eqn:Hacc.
  { rewrite (made_eq _ _ _ (getAccount_found_eq c st a Hacc)).
    apply sendResponse_made. }
  destruct (token_admin (token (this st))) eqn:Hadm.
  - destruct (findObject (world st) e) as [a|] eqn:Hsys.
    + rewrite (made_eq _ _ _ (getAccount_system_eq c st a Hadm Hacc Hsys)).
      apply sendResponse_made.
    + rewrite (made_eq _ _ _ (getAccount_create_eq c st Hadm Hacc Hsys)).
      fold e m'. run_made; reflexivity.
  - rewrite (made_eq _ _ _ (getAccount_absent_eq c st Hacc Hadm)).
    apply sendResponse_made.
Qed.


Ltac not_in_list H :=
  repeat (apply elem_of_cons in H as [H|H]; [try discriminate|]);
  try (apply elem_of_nil in H; contradiction).

(** X3: [getAccount] submits a transaction to the pipeline only for an admin
    caller, when the model store has neither an account for the email nor a
    document under the raw email as reference; what it submits is then the
    creation of the system account, alone in its batch, with the context of
    the session. *)
Theorem getAccount_writes_only_for_admin c st m txs :
  let e := token_email (token (this st)) in
  Call_tx m txs ∈ made (getAccount c) st →
  token_admin (token (this st)) = true ∧
  getAccountByEmail (world st) e = None ∧
  findObject (world st) e = None ∧
  m = sessionContext (this st) (ctx c) ∧
  txs = [as_Tx (systemAccountTx e)].
Proof.
  intros e. rewrite getAccount_made. fold e.
  destruct (getAccountByEmail (world st) e); [intros Hin; not_in_list Hin|].
  destruct (token_admin (token (this st))); [|intros Hin; not_in_list Hin].
  destruct (findObject (world st) e); [intros Hin; not_in_list Hin|].
  destruct (pipeline_tx _ _ _).1; intros Hin;
    apply elem_of_cons in Hin as [Hin|Hin]; try (not_in_list Hin; fail);
    inversion Hin; done.
Qed.

(** X4: when the pipeline rejects the creation of the system account,
    [getAccount] fails with the error of the pipeline and gives no answer to
    the response channel: the submission is the only call made. *)
Theorem getAccount_creation_rejected c st err :
  let e := token_email (token (this st)) in
  let m' := sessionContext (this st) (ctx c) in
  token_admin (token (this st)) = true →
  getAccountByEmail (world st) e = None →
  findObject (world st) e = None →
  (pipeline_tx m' [as_Tx (systemAccountTx e)] (world st)).1 = inl err →
  (getAccount c st).1 = inl err ∧
  made (getAccount c) st = [Call_tx m' [as_Tx (systemAccountTx e)]] ∧
  responses (made (getAccount c) st) = 0%nat.
Proof.
  intros e m' Hadm Hacc Hsys Herr.
  assert (Hm : made (getAccount c) st = [Call_tx m' [as_Tx (systemAccountTx e)]]).
  { rewrite getAccount_made. fold e m'. rewrite Hacc, Hadm, Hsys, Herr. reflexivity. }
  split; [|split; [exact Hm|rewrite Hm; reflexivity]].
  rewrite (getAccount_create_eq c st Hadm Hacc Hsys). fold e m'.
  revert Herr. unfold_M. answers; intros Herr; congruence.
Qed.

(** ** [tx] *)

(** X5: when the pipeline rejects the transaction, [tx] fails with the error
    of the pipeline, having made that one call: the caller gets no answer and
    the broadcast is not flushed.  The call was counted all the same. *)
Theorem tx_pipeline_rejects c t st err :
  let m' := sessionContext (this st) (ctx c) in
  (pipeline_tx m' [t] (world st)).1 = inl err →
  (tx c t st).1 = inl err ∧
  made (tx c t) st = [Call_tx m' [t]] ∧
  Stat.tx (total (this (after (tx c t) st))) = Stat.tx (total (this st)) + 1 ∧
  Stat.tx (current (this (after (tx c t) st))) = Stat.tx (current (this st)) + 1.
Proof.
  intros m' Herr. split; [|split].
  - revert Herr. unfold tx. unfold_M. rewrite sessionContext_bookkeeping. fold m'.
    answers; intros Herr; congruence.
  - rewrite tx_made. fold m'. rewrite Herr. reflexivity.
  - rewrite tx_this. cbn. done.
Qed.

(** X6: when the pipeline accepts the transaction and the response channel
    then fails, [tx] fails with the error of the channel and never calls
    [handleBroadcast]. *)
Theorem tx_response_fails c t st result w err :
  let m' := sessionContext (this st) (ctx c) in
  pipeline_tx m' [t] (world st) = (inr result, w) →
  (ctx_sendResponse (PTxResult result) w).1 = inl err →
  (tx c t st).1 = inl err ∧
  made (tx c t) st = [Call_tx m' [t]; Call_sendResponse (PTxResult result)] ∧
  (∀ mb, Call_handleBroadcast mb ∉ made (tx c t) st).
Proof.
  intros m' Htx Herr.
  assert (Hm : made (tx c t) st =
                 [Call_tx m' [t]; Call_sendResponse (PTxResult result)]).
  { rewrite tx_made. fold m'. rewrite Htx. cbn. rewrite Herr. reflexivity. }
  split; [|split; [exact Hm|]].
  - revert Herr. unfold tx. unfold_M. rewrite sessionContext_bookkeeping. fold m'.
    rewrite Htx. cbn. answers; intros Herr; congruence.
  - intros mb Hin. rewrite Hm in Hin. not_in_list Hin.
Qed.

(** ** Queries *)

Lemma findAll_made c cl q o st :
  let m' := sessionContext (this st) (ctx c) in
  made (findAll c cl q o) st =
    match (pipeline_findAll m' cl q o (world st)).1 with
    | inl _ => [Call_findAll m' cl q o]
    | inr r => [Call_findAll m' cl q o; Call_sendResponse (PFindResult r)]
    end.
Proof.
  intros m'. unfold findAll, findAllRaw. unfold made, after. unfold_M.
  rewrite sessionContext_bookkeeping. fold m'.
  answers; rewrite <- ?app_assoc, ?drop_app_length; reflexivity.
Qed.

Lemma searchFulltext_made c q o st :
  let m' := sessionContext (this st) (ctx c) in
  made (searchFulltext c q o) st =
    match (pipeline_searchFulltext m' q o (world st)).1 with
    | inl _ => [Call_searchFulltext m' q o]
    | inr r => [Call_searchFulltext m' q o; Call_sendResponse (PSearchResult r)]
    end.
Proof.
  intros m'. unfold searchFulltext. unfold made, after. unfold_M.
  change (sessionContext (set_lastRequest _ _) (ctx c)) with m'.
  answers; rewrite <- ?app_assoc, ?drop_app_length; reflexivity.
Qed.

Lemma loadModel_made c t h st :
  let m' := sessionContext (this st) (ctx c) in
  made (loadModel c t h) st =
    match (pipeline_loadModel m' t h (world st)).1 with
    | inl _ => [Call_loadModel m' t h]
    | inr r => [Call_loadModel m' t h; Call_sendResponse (PLoadModel r)]
    end.
Proof.
  intros m'. unfold loadModel. unfold made, after. unfold_M. fold m'.
  answers; rewrite <- ?app_assoc, ?drop_app_length; reflexivity.
Qed.

Lemma ping_made c st : made (ping c) st = [Call_sendResponse (PString "pong!")].
Proof.
  unfold ping. unfold made, after. unfold_M.
  answers; rewrite <- ?app_assoc, ?drop_app_length; reflexivity.
Qed.

(** X7: [findAll] hands the class, the query and the options as given to the
    pipeline, with the context of the session, and answers with what the
    pipeline found; when the pipeline fails, it fails with the same error and
    gives no answer. *)
Theorem findAll_forwards c cl q o st :
  let m' := sessionContext (this st) (ctx c) in
  made (findAll c cl q o) st =
    match (pipeline_findAll m' cl q o (world st)).1 with
    | inl _ => [Call_findAll m' cl q o]
    | inr r => [Call_findAll m' cl q o; Call_sendResponse (PFindResult r)]
    end ∧
  (findAll c cl q o st).1 =
    match pipeline_findAll m' cl q o (world st) with
    | (inl err, _) => inl err
    | (inr r, w) => (ctx_sendResponse (PFindResult r) w).1
    end.
Proof.
  intros m'. split; [apply findAll_made|].
  unfold findAll, findAllRaw. unfold_M. rewrite sessionContext_bookkeeping. fold m'.
  answers; reflexivity.
Qed.

(** X8: [searchFulltext] hands the query and the options as given to the
    pipeline, with the context of the session, and answers with what the
    pipeline found; when the pipeline fails, it fails with the same error and
    gives no answer. *)
Theorem searchFulltext_forwards c q o st :
  let m' := sessionContext (this st) (ctx c) in
  made (searchFulltext c q o) st =
    match (pipeline_searchFulltext m' q o (world st)).1 with
    | inl _ => [Call_searchFulltext m' q o]
    | inr r => [Call_searchFulltext m' q o; Call_sendResponse (PSearchResult r)]
    end ∧
  (searchFulltext c q o st).1 =
    match pipeline_searchFulltext m' q o (world st) with
    | (inl err, _) => inl err
    | (inr r, w) => (ctx_sendResponse (PSearchResult r) w).1
    end.
Proof.
  intros m'. split; [apply searchFulltext_made|].
  unfold searchFulltext. unfold_M.
  change (sessionContext (set_lastRequest _ _) (ctx c)) with m'.
  answers; reflexivity.
Qed.

(** X9: [loadModel] hands the time of the last model transaction and the hash
    as given to the pipeline, with the context of the session, and answers
    with what the pipeline loaded; when the pipeline fails, it fails with the
    same error and gives no answer.  The session is left as it was: loading
    the model does not count as a request. *)
Theorem loadModel_forwards c t h st :
  let m' := sessionContext (this st) (ctx c) in
  made (loadModel c t h) st =
    match (pipeline_loadModel m' t h (world st)).1 with
    | inl _ => [Call_loadModel m' t h]
    | inr r => [Call_loadModel m' t h; Call_sendResponse (PLoadModel r)]
    end ∧
  (loadModel c t h st).1 =
    match pipeline_loadModel m' t h (world st) with
    | (inl err, _) => inl err
    | (inr r, w) => (ctx_sendResponse (PLoadModel r) w).1
    end ∧
  this (after (loadModel c t h) st) = this st.
Proof.
  intros m'. split; [apply loadModel_made|]. split; [|apply loadModel_this].
  unfold loadModel. unfold_M. fold m'. answers; reflexivity.
Qed.


(** ** All operations *)

Ltac op_cases o :=
  destruct o; cbn [run op_context is_broadcast];
  rewrite ?ping_made, ?loadModel_made, ?getAccount_made, ?findAll_made,
    ?searchFulltext_made, ?tx_made, ?broadcast_made; cbn zeta;
  repeat match goal with
  | |- context [getAccountByEmail ?w ?e] => destruct (getAccountByEmail w e)
  | |- context [findObject ?w ?e] => destruct (findObject w e)
  | |- context [token_admin ?t] => destruct (token_admin t) eqn:?
  end.


(** X11: no operation changes the live requests, the transport flags, the
    session id, the creation time, the token, the workspace, the branding,
    the measures or the five minute statistics of the session. *)
Theorem run_frame o st :
  let s := this st in
  let s' := this (after (run o) st) in
  requests s' = requests s ∧
  binaryMode s' = binaryMode s ∧
  useCompression s' = useCompression s ∧
  sessionId s' = sessionId s ∧
  createTime s' = createTime s ∧
  token s' = token s ∧
  workspaceId s' = workspaceId s ∧
  branding s' = branding s ∧
  measures s' = measures s ∧
  mins5 s' = mins5 s.
Proof.
  cbn zeta. destruct o; cbn [run];
    rewrite ?ping_this, ?loadModel_this, ?getAccount_this, ?findAll_this,
      ?searchFulltext_this, ?tx_this, ?broadcast_this; cbn; done.
Qed.

(** X12: [findAll] changes no transaction counter and [tx] changes no find
    counter. *)
Theorem find_and_tx_counters_independent c st :
  (∀ cl q o,
     Stat.tx (total (this (after (findAll c cl q o) st))) = Stat.tx (total (this st)) ∧
     Stat.tx (current (this (after (findAll c cl q o) st))) =
       Stat.tx (current (this st))) ∧
  (∀ t,
     Stat.find (total (this (after (tx c t) st))) = Stat.find (total (this st)) ∧
     Stat.find (current (this (after (tx c t) st))) = Stat.find (current (this st))).
Proof.
  split.
  - intros cl q o. rewrite findAll_this. cbn. done.
  - intros t. rewrite tx_this. cbn. done.
Qed.

(** X13: [getAccount] leaves the session as it was, like [loadModel] and
    [broadcast]: it is not counted and does not set the time of the last
    request, and this on each of its paths, whatever the collaborators
    answer. *)
Theorem getAccount_not_activity c st :
  this (after (getAccount c) st) = this st ∧
  lastRequest (this (after (getAccount c) st)) = lastRequest (this st) ∧
  total (this (after (getAccount c) st)) = total (this st) ∧
  current (this (after (getAccount c) st)) = current (this st).
Proof. rewrite getAccount_this. done. Qed.

(** X14: an operation gives at most one answer to the response channel, and
    [broadcast] gives none. *)
Theorem at_most_one_response o st :
  (responses (made (run o) st) ≤ 1)%nat ∧
  (if is_broadcast o then responses (made (run o) st) = 0%nat else True).
Proof.
  op_cases o; answers; cbn; split; (lia || done).
Qed.

(** X15: a request that completes normally was answered exactly once. *)
Theorem completed_request_answered_once o st :
  is_broadcast o = false →
  (run o st).1 = inr () →
  responses (made (run o) st) = 1%nat.
Proof.
  intros Hb. destruct o; try discriminate; cbn [run]; clear Hb.
  - rewrite ping_made. reflexivity.
  - rewrite loadModel_made. unfold loadModel. unfold_M.
    answers; intros Hok; try discriminate; reflexivity.
  - rewrite getAccount_made. unfold getAccount. unfold_M.
    destruct (getAccountByEmail _ _); cbn; [reflexivity|].
    destruct (token_admin _); cbn; [|reflexivity].
    destruct (findObject _ _); cbn; [reflexivity|].
    unfold_M. answers; intros Hok; try discriminate; reflexivity.
  - rewrite findAll_made. unfold findAll, findAllRaw. unfold_M.
    rewrite sessionContext_bookkeeping.
    answers; intros Hok; try discriminate; reflexivity.
  - rewrite searchFulltext_made. unfold searchFulltext. unfold_M.
    change (sessionContext (set_lastRequest _ _) (ctx c)) with
      (sessionContext (this st) (ctx c)).
    answers; intros Hok; try discriminate; reflexivity.
  - rewrite tx_made. unfold tx. unfold_M. rewrite sessionContext_bookkeeping.
    answers; intros Hok; try discriminate; reflexivity.
Qed.

(** X16: the total and the current statistics move together: every operation
    adds the same to a counter of the one as to the counter of the other, and
    that is nothing or one. *)
Theorem counters_move_together o st :
  let s := this st in
  let s' := this (after (run o) st) in
  Stat.find (total s') - Stat.find (total s) =
    Stat.find (current s') - Stat.find (current s) ∧
  Stat.tx (total s') - Stat.tx (total s) = Stat.tx (current s') - Stat.tx (current s) ∧
  0 ≤ Stat.find (total s') - Stat.find (total s) ≤ 1 ∧
  0 ≤ Stat.tx (total s') - Stat.tx (total s) ≤ 1.
Proof.
  cbn zeta. destruct o; cbn [run];
    rewrite ?ping_this, ?loadModel_this, ?getAccount_this, ?findAll_this,
      ?searchFulltext_this, ?tx_this, ?broadcast_this; cbn; lia.
Qed.

(** X17: no operation sets the time of the last request back, when that time
    is not in the future. *)
Theorem lastRequest_never_set_back o st :
  clock_ok st →
  lastRequest (this st) ≤ lastRequest (this (after (run o) st)).
Proof.
  unfold clock_ok. intros Hclock.
  destruct (run_this o st) as [E|E]; rewrite E; lia.
Qed.

(** X18: in every state reached from a new session by its operations, with a
    clock that does not run backwards, the time of the last request is not in
    the future, the total statistics equal the current ones and no counter
    is negative. *)
Theorem reachable_invariant `{!MonotoneClock} st :
  reachable st →
  clock_ok st ∧
  total (this st) = current (this st) ∧
  0 ≤ Stat.find (total (this st)) ∧
  0 ≤ Stat.tx (total (this st)).
Proof.
  intros Hr. split; [by apply reachable_clock_ok|].
  induction Hr as [st (t0 & t1 & tok & ws & br & E & Ht)|o st _ IH|st w _ IH Hw].
  - rewrite E. cbn. done.
  - destruct IH as (Heq & Hf & Ht).
    destruct o; cbn [run];
      rewrite ?ping_this, ?loadModel_this, ?getAccount_this, ?findAll_this,
        ?searchFulltext_this, ?tx_this, ?broadcast_this; cbn;
      rewrite ?Heq; repeat split; try done; try lia;
      rewrite <- ?Heq; lia.
  - exact IH.
Qed.

(** ** [broadcast] *)

(** X19: the loop of the compacting branch of [broadcast] builds a list
    without duplicates that holds exactly the target classes of the
    transactions of the batch whose class is a create, update or delete
    change, and those of their unwrapped forms whose class is one; an empty
    batch gives no class. *)
Theorem collect_loop_classes txs :
  NoDup (foldl collect [] txs) ∧
  (∀ r, r ∈ foldl collect [] txs ↔
        ∃ dtx, dtx ∈ txs ∧
          (isExtendsCUD (_class dtx) = true ∧ r = TxCUD_objectClass dtx ∨
           isExtendsCUD (_class (extractTx dtx)) = true ∧
           r = TxCUD_objectClass (extractTx dtx))) ∧
  foldl collect [] [] = [].
Proof.
  destruct (foldl_collect_spec txs) as [Hnd Hel].
  split; [done|]. split; [|done].
  intros r. rewrite Hel. unfold affected_classes.
  split; intros (dtx & Hin & Hr); exists dtx; (split; [done|]).
  - destruct (isExtendsCUD (_class dtx)), (isExtendsCUD (_class (extractTx dtx)));
      cbn in Hr; not_in_list Hr; subst; auto.
  - destruct Hr as [[-> ->]|[E ->]].
    + cbn. apply list_elem_of_here.
    + rewrite E. apply elem_of_app. right. apply list_elem_of_here.
Qed.

(** X20: whatever the batch and its length, [broadcast] returns normally
    having made one call, the call of the send helper with the batch as
    given, and never calls [socket.send]: the compacting branch is never
    taken. *)
Theorem broadcast_never_compacts m sk txs st :
  (broadcast m sk txs st).1 = inr () ∧
  made (broadcast m sk txs) st =
    [Call_handleSend m sk {| result := txs |} (1024 * 1024)
       (binaryMode (this st)) (useCompression (this st))] ∧
  (∀ sk' m' msg b z, Call_socket_send sk' m' msg b z ∉ made (broadcast m sk txs) st) ∧
  world (after (broadcast m sk txs) st) =
    handleSend m sk {| result := txs |} (1024 * 1024)
      (binaryMode (this st)) (useCompression (this st)) (world st).
Proof.
  rewrite broadcast_made. unfold after. rewrite broadcast_eq. cbn.
  split; [done|]. split; [done|]. split; [|done].
  intros sk' m' msg b z Hin. not_in_list Hin.
Qed.

End Methods.

(** * The properties on the test double *)

Import TestDouble.

Lemma apply_txs_clock txs w : clock (foldl (λ w t, apply_tx t w) w txs) = clock w.
Proof.
  revert w. induction txs as [|t txs IH]; intros w; cbn; [done|].
  rewrite IH. destruct t; reflexivity.
Qed.

#[export] Instance test_double_clock : MonotoneClock (W := World).
Proof. split; intros; cbn; rewrite ?apply_txs_clock; lia. Qed.

(** A session that served a ping is in a reachable state, so that the time
    of its last request is not in the future. *)
Example reachable_after_ping :
  clock_ok (after (run (Op_ping sctx)) (state0 user_token)).
Proof.
  apply reachable_clock_ok, reachable_run, reachable_new.
  exists 1000, 1000, user_token, "ws", None. split; [reflexivity|cbn; lia].
Qed.

Example collect_small_batch :
  foldl collect [] (small_batch ++ [TCollection "class:C" txB; TEvent []]) =
    ["class:A"; "class:B"; "class:C"].
Proof. vm_compute. reflexivity. Qed.

(** C1: on a batch of 10,001 transactions of class A, [broadcast] makes one
    call, the call of the send helper with the whole batch; the compacted
    event for the class set of the batch, that is for class A alone, is not
    sent to the socket: no call of [socket.send] is made at all. *)
Theorem broadcast_large_batch_not_compacted :
  let st := state0 user_token in
  Z.of_nat (length large_batch) = 10001 ∧
  foldl collect [] large_batch = ["class:A"] ∧
  made (broadcast mctx "sock" large_batch) st =
    [Call_handleSend mctx "sock" {| result := large_batch |} (1024 * 1024) false true] ∧
  made (broadcast mctx "sock" large_batch) st ≠
    [Call_socket_send "sock" mctx
       {| result := [createBroadcastEvent (foldl collect [] large_batch)] |} false true] ∧
  (∀ sk m msg b z,
     Call_socket_send sk m msg b z ∉ made (broadcast mctx "sock" large_batch) st).
Proof.
  cbn zeta. rewrite broadcast_made. split; [|split; [|split; [|split]]].
  - unfold large_batch. rewrite length_replicate. lia.
  - vm_compute. reflexivity.
  - reflexivity.
  - discriminate.
  - intros sk m msg b z Hin. apply list_elem_of_singleton in Hin. discriminate.
Qed.

Lemma broadcast_sends_batch_verbatim_witness :
  Z.of_nat (length small_batch) ≤ 10000 ∧
  (broadcast mctx "sock" small_batch (state0 user_token)).1 = inr () ∧
  made (broadcast mctx "sock" small_batch) (state0 user_token) =
    [Call_handleSend mctx "sock" {| result := small_batch |} (1024 * 1024) false true].
Proof.
  split; [cbn; lia|].
  apply (broadcast_sends_batch_verbatim mctx "sock" small_batch (state0 user_token)).
  cbn; lia.
Defined.

Lemma getAccount_absent_no_write_witness :
  made (getAccount sctx) (state0 user_token) = [Call_sendResponse (PAccount None)] ∧
  (∀ m txs, Call_tx m txs ∉ made (getAccount sctx) (state0 user_token)) ∧
  this (after (getAccount sctx) (state0 user_token)) = this (state0 user_token).
Proof.
  apply (getAccount_absent_no_write sctx (state0 user_token)); reflexivity.
Defined.

Lemma getAccount_admin_creates_system_account_witness :
  let st := state0 admin_token in
  let createTx := systemAccountTx "admin@example.com" in
  let acc := createDoc2Doc createTx in
  made (getAccount sctx) st =
    [Call_tx (sessionContext (this st) mctx) [TCreate createTx];
     Call_sendResponse (PAccount (Some acc))] ∧
  email (data acc) = "system:admin@example.com" ∧
  role (data acc) = Owner ∧
  _id acc = "admin@example.com".
Proof.
  assert (Hw := getAccount_admin_creates_system_account sctx (state0 admin_token)).
  cbn zeta in Hw. apply Hw; vm_compute; reflexivity.
Defined.

Lemma getAccount_idempotent_witness :
  let st := state0 admin_token in
  let st1 := after (getAccount sctx) st in
  let createTx := systemAccountTx "admin@example.com" in
  let acc := createDoc2Doc createTx in
  findObject (world st1) "admin@example.com" = Some acc ∧
  getAccountByEmail (world st1) "admin@example.com" = None ∧
  made (getAccount sctx) st =
    [Call_tx (sessionContext (this st) mctx) [TCreate createTx];
     Call_sendResponse (PAccount (Some acc))] ∧
  made (getAccount sctx) st1 = [Call_sendResponse (PAccount (Some acc))] ∧
  (∀ m txs, Call_tx m txs ∉ made (getAccount sctx) st1).
Proof.
  cbn zeta. split; [vm_compute; reflexivity|]. split; [vm_compute; reflexivity|].
  apply (getAccount_idempotent sctx sctx (state0 admin_token));
    vm_compute; reflexivity.
Defined.

Lemma tx_reply_before_broadcast_witness :
  let st := state0 user_token in
  let m' := sessionContext (this st) mctx in
  made (tx sctx txA) st =
    [Call_tx m' [txA]; Call_sendResponse (PTxResult ())] ++
    Call_handleBroadcast m' :: [] ∧
  ∃ result,
    (pipeline_tx m' [txA] (world st)).1 = inr result ∧
    [Call_tx m' [txA]; Call_sendResponse (PTxResult ())] =
      [Call_tx m' [txA]; Call_sendResponse (PTxResult result)] ∧
    m' = m' ∧ @nil Call = [].
Proof.
  cbn zeta. split; [vm_compute; reflexivity|].
  apply (tx_reply_before_broadcast sctx txA (state0 user_token)).
  vm_compute; reflexivity.
Defined.

Lemma find_and_tx_counted_once_witness :
  let st := state0 user_token in
  clock_ok st ∧
  Stat.find (total (this (after (findAll sctx "class:A" "{}" None) st))) = 1 ∧
  Stat.tx (current (this (after (tx sctx txA) st))) = 1.
Proof.
  cbn zeta. assert (Hclock : clock_ok (state0 user_token)) by (unfold clock_ok; cbn; lia).
  split; [exact Hclock|].
  destruct (find_and_tx_counted_once sctx (state0 user_token) Hclock) as [Hfind Htx].
  split.
  - apply (Hfind "class:A" "{}" None).
  - apply (Htx txA).
Defined.

(** * The further properties on the test doubles *)

Import FaultyDouble.

Lemma getAccount_found_witness :
  made (getAccount sctx) (state_with_alice user_token) =
    [Call_sendResponse (PAccount (Some alice))] ∧
  this (after (getAccount sctx) (state_with_alice user_token)) =
    this (state_with_alice user_token).
Proof.
  apply (getAccount_found sctx (state_with_alice user_token) alice).
  vm_compute; reflexivity.
Defined.

Lemma getAccount_existing_system_account_witness :
  let st1 := after (getAccount sctx) (state0 admin_token) in
  made (getAccount sctx) st1 =
    [Call_sendResponse
       (PAccount (Some (createDoc2Doc (systemAccountTx "admin@example.com"))))].
Proof.
  apply (getAccount_existing_system_account sctx
           (after (getAccount sctx) (state0 admin_token)));
    vm_compute; reflexivity.
Defined.

Lemma getAccount_writes_only_for_admin_witness :
  let st := state0 admin_token in
  let m := sessionContext (this st) mctx in
  let txs := [TCreate (systemAccountTx "admin@example.com")] in
  Call_tx m txs ∈ made (getAccount sctx) st ∧
  token_admin (token (this st)) = true ∧
  getAccountByEmail (world st) "admin@example.com" = None ∧
  findObject (world st) "admin@example.com" = None ∧
  m = sessionContext (this st) (ctx sctx) ∧
  txs = [as_Tx (systemAccountTx "admin@example.com")].
Proof.
  cbn zeta.
  assert (Hin : Call_tx (sessionContext (this (state0 admin_token)) mctx)
                  [TCreate (systemAccountTx "admin@example.com")]
                ∈ made (getAccount sctx) (state0 admin_token)).
  { vm_compute. apply list_elem_of_here. }
  split; [exact Hin|].
  apply (getAccount_writes_only_for_admin sctx (state0 admin_token) _ _ Hin).
Defined.

Lemma getAccount_creation_rejected_witness :
  let st := faulty_state admin_token true false in
  (getAccount sctx st).1 = inl "down" ∧
  made (getAccount sctx) st =
    [Call_tx (sessionContext (this st) mctx)
       [TCreate (systemAccountTx "admin@example.com")]] ∧
  responses (made (getAccount sctx) st) = 0%nat.
Proof.
  apply (getAccount_creation_rejected sctx (faulty_state admin_token true false) "down");
    vm_compute; reflexivity.
Defined.

Lemma tx_pipeline_rejects_witness :
  let st := faulty_state user_token true false in
  (tx sctx txA st).1 = inl "down" ∧
  made (tx sctx txA) st = [Call_tx (sessionContext (this st) mctx) [txA]] ∧
  Stat.tx (total (this (after (tx sctx txA) st))) = Stat.tx (total (this st)) + 1 ∧
  Stat.tx (current (this (after (tx sctx txA) st))) = Stat.tx (current (this st)) + 1.
Proof.
  apply (tx_pipeline_rejects sctx txA (faulty_state user_token true false) "down").
  vm_compute; reflexivity.
Defined.

Lemma tx_response_fails_witness :
  let st := faulty_state user_token false true in
  (tx sctx txA st).1 = inl "down" ∧
  made (tx sctx txA) st =
    [Call_tx (sessionContext (this st) mctx) [txA]; Call_sendResponse (PTxResult ())] ∧
  (∀ mb, Call_handleBroadcast mb ∉ made (tx sctx txA) st).
Proof.
  cbn zeta.
  eapply (tx_response_fails sctx txA (faulty_state user_token false true) () _ "down").
  - vm_compute. reflexivity.
  - vm_compute. reflexivity.
Defined.


Lemma completed_request_answered_once_witness :
  let o := Op_getAccount sctx in
  (run o (state0 admin_token)).1 = inr () ∧
  responses (made (run o) (state0 admin_token)) = 1%nat.
Proof.
  cbn zeta. split; [vm_compute; reflexivity|].
  apply (completed_request_answered_once (Op_getAccount sctx) (state0 admin_token));
    vm_compute; reflexivity.
Defined.

Lemma lastRequest_never_set_back_witness :
  let st := after (run (Op_ping sctx)) (state0 user_token) in
  clock_ok st ∧
  lastRequest (this st) ≤ lastRequest (this (after (run (Op_tx sctx txA)) st)).
Proof.
  cbn zeta.
  assert (Hclock : clock_ok (after (run (Op_ping sctx)) (state0 user_token)))
    by (unfold clock_ok; vm_compute; discriminate).
  split; [exact Hclock|].
  apply (lastRequest_never_set_back (Op_tx sctx txA) _ Hclock).
Defined.

Lemma reachable_invariant_witness :
  let st := after (run (Op_findAll sctx "class:A" "{}" None))
              (after (run (Op_tx sctx txA)) (state0 user_token)) in
  reachable st ∧
  clock_ok st ∧
  total (this st) = current (this st) ∧
  0 ≤ Stat.find (total (this st)) ∧
  0 ≤ Stat.tx (total (this st)).
Proof.
  cbn zeta.
  assert (Hr : reachable (after (run (Op_findAll sctx "class:A" "{}" None))
                            (after (run (Op_tx sctx txA)) (state0 user_token)))).
  { apply reachable_run, reachable_run, reachable_new.
    exists 1000, 1000, user_token, "ws", None. split; [reflexivity|cbn; lia]. }
  split; [exact Hr|]. apply (reachable_invariant _ Hr).
Defined.
